(** * util/grpc/errors.go: normalisation of backend errors into gRPC statuses

    A shallow embedding of [util/grpc/errors.go] and the properties of its
    two classifiers ([gitErrToGRPC], [kubeErrToGRPC]), of the status
    unwrapper ([UnwrapGRPCStatus]) and of the four interceptors, followed
    by the helpers of [test/e2e/fixture/fixture.go] that do no I/O.

    Layout: the Go values the file handles and the parts of the imported
    packages it calls ([codes], [status], [errors], [apierrors], [giterr])
    come first, then the functions of [errors.go] in source order, then
    the specification-side definitions, then the theorems. *)

From Stdlib Require Import String Ascii List Bool ZArith NArith Lia.
From Stdlib Require Import DecimalString.
Import ListNotations.
Open Scope string_scope.

(* ================================================================== *)
(** ** Calls that may panic *)

(** A Go call either returns or panics.  The only panic [errors.go] can
    reach is a method call on a nil interface ([err.Error()] in
    [rewrapError]). *)
Inductive outcome (A : Type) : Type :=
| Returns (a : A)
| Panics.
Arguments Returns {A} a.
Arguments Panics {A}.

Definition bind {A B : Type} (m : outcome A) (k : A -> outcome B) : outcome B :=
  match m with
  | Returns a => k a
  | Panics => Panics
  end.

Notation "x <- m ;; k" := (bind m (fun x => k))
  (at level 61, m at next level, right associativity).

(* ================================================================== *)
(** ** google.golang.org/grpc/codes *)

Module codes.

(** [type Code uint32]; the seventeen named codes are the values 0..16,
    any other number is a code without a name. *)
Definition Code := N.

Definition OK : Code := 0%N.
Definition Canceled : Code := 1%N.
Definition Unknown : Code := 2%N.
Definition InvalidArgument : Code := 3%N.
Definition DeadlineExceeded : Code := 4%N.
Definition NotFound : Code := 5%N.
Definition AlreadyExists : Code := 6%N.
Definition PermissionDenied : Code := 7%N.
Definition ResourceExhausted : Code := 8%N.
Definition FailedPrecondition : Code := 9%N.
Definition Aborted : Code := 10%N.
Definition OutOfRange : Code := 11%N.
Definition Unimplemented : Code := 12%N.
Definition Internal : Code := 13%N.
Definition Unavailable : Code := 14%N.
Definition DataLoss : Code := 15%N.
Definition Unauthenticated : Code := 16%N.

(** [func (c Code) String() string] *)
Definition String (c : Code) : string :=
  match c with
  | 0%N => "OK"
  | 1%N => "Canceled"
  | 2%N => "Unknown"
  | 3%N => "InvalidArgument"
  | 4%N => "DeadlineExceeded"
  | 5%N => "NotFound"
  | 6%N => "AlreadyExists"
  | 7%N => "PermissionDenied"
  | 8%N => "ResourceExhausted"
  | 9%N => "FailedPrecondition"
  | 10%N => "Aborted"
  | 11%N => "OutOfRange"
  | 12%N => "Unimplemented"
  | 13%N => "Internal"
  | 14%N => "Unavailable"
  | 15%N => "DataLoss"
  | 16%N => "Unauthenticated"
  | _ => "Code(" ++ NilZero.string_of_uint (N.to_uint c) ++ ")"
  end.

End codes.

(* ================================================================== *)
(** ** k8s.io/apimachinery/pkg/apis/meta/v1 *)

Module metav1.

(** [type StatusReason string] *)
Definition StatusReason := string.

Definition StatusReasonUnknown : StatusReason := "".
Definition StatusReasonUnauthorized : StatusReason := "Unauthorized".
Definition StatusReasonForbidden : StatusReason := "Forbidden".
Definition StatusReasonNotFound : StatusReason := "NotFound".
Definition StatusReasonAlreadyExists : StatusReason := "AlreadyExists".
Definition StatusReasonConflict : StatusReason := "Conflict".
Definition StatusReasonGone : StatusReason := "Gone".
Definition StatusReasonInvalid : StatusReason := "Invalid".
Definition StatusReasonServerTimeout : StatusReason := "ServerTimeout".
Definition StatusReasonStoreReadError : StatusReason := "StorageReadError".
Definition StatusReasonTimeout : StatusReason := "Timeout".
Definition StatusReasonTooManyRequests : StatusReason := "TooManyRequests".
Definition StatusReasonBadRequest : StatusReason := "BadRequest".
Definition StatusReasonMethodNotAllowed : StatusReason := "MethodNotAllowed".
Definition StatusReasonNotAcceptable : StatusReason := "NotAcceptable".
Definition StatusReasonRequestEntityTooLarge : StatusReason := "RequestEntityTooLarge".
Definition StatusReasonUnsupportedMediaType : StatusReason := "UnsupportedMediaType".
Definition StatusReasonInternalError : StatusReason := "InternalError".
Definition StatusReasonExpired : StatusReason := "Expired".
Definition StatusReasonServiceUnavailable : StatusReason := "ServiceUnavailable".

(** The two fields of [metav1.Status] that the predicates of
    [apierrors] read: [Reason] and the HTTP [Code] (an int32). *)
Record Status : Type := mkStatus {
  Reason : StatusReason;
  Code : Z
}.

End metav1.

(* ================================================================== *)
(** ** Go error values *)

(** What a [*status.Status] points to, as far as [errors.go] reads it:
    [Code()] and [Message()].  A [*status.Status] itself is an
    [option Status], [None] being the nil pointer.  The details a status
    may carry besides are not represented: [errors.go] never reads them,
    a status it rebuilds has none, and where a theorem below says that a
    status is kept it says so of the code and the message. *)
Record Status : Type := mkStatus {
  Code : codes.Code;
  Message : string
}.

(** A non-nil [error] whose methods return.  The dynamic type behind the
    interface is open; [errors.go] and the packages it calls observe a
    value through its methods, and a value records what each of them
    yields:
    - [errText]: the result of [Error()];
    - [grpcCap]: [Some p] when the dynamic type has a method
      [GRPCStatus() *status.Status], [p] being what the method returns
      (possibly the nil pointer), [None] when it has no such method;
    - [apiCap]: [Some st] when the dynamic type implements
      [apierrors.APIStatus], [st] being what [Status()] returns;
    - [cause]: what [errors.Unwrap] returns, [None] both for a type
      without [Unwrap() error] and for an [Unwrap] that returns nil;
    - [causes]: for a type with [Unwrap() []error] (a value built by
      [errors.Join] or by [fmt.Errorf] with several [%w]), the non-nil
      elements of what the method returns; empty for any other type.
      [errors.Unwrap] does not look at them, [errors.As] does.
    A type has one method named [Unwrap] at most, so a Go value has no
    [cause] or no [causes]; nothing below depends on it.  Values are
    finite: a value is built after its causes.  A non-nil interface that
    holds a nil pointer, on which the methods themselves panic, is not
    one of these values. *)
#[warnings="-register-all"]
Inductive errval : Type :=
| ErrVal (errText : string)
         (grpcCap : option (option Status))
         (apiCap : option metav1.Status)
         (cause : option errval)
         (causes : list errval).

(** The interface type [error]: nil or a value. *)
Definition error : Type := option errval.

Definition errText (e : errval) : string :=
  match e with ErrVal t _ _ _ _ => t end.
Definition grpcCap (e : errval) : option (option Status) :=
  match e with ErrVal _ g _ _ _ => g end.
Definition apiCap (e : errval) : option metav1.Status :=
  match e with ErrVal _ _ a _ _ => a end.
Definition cause (e : errval) : error :=
  match e with ErrVal _ _ _ c _ => c end.
Definition causes (e : errval) : list errval :=
  match e with ErrVal _ _ _ _ l => l end.

(** [err.Error()]: a method call on the nil interface panics. *)
Definition err_Error (err : error) : outcome string :=
  match err with
  | Some e => Returns (errText e)
  | None => Panics
  end.

(** [err.(interface{ GRPCStatus() *status.Status })] followed by the call
    of the method: [None] when the assertion fails (also on nil). *)
Definition assertGRPCStatus (err : error) : option (option Status) :=
  match err with
  | Some e => grpcCap e
  | None => None
  end.

(* ================================================================== *)
(** ** errors (standard library) and fmt.Errorf *)

Module errors.

(** [errors.New(text)]: an [*errorString], with no capability. *)
Definition New (text : string) : error :=
  Some (ErrVal text None None None []).

(** [errors.Unwrap(err)]: nil for nil, for a link without cause and for
    a value with [Unwrap() []error]. *)
Definition Unwrap (err : error) : error :=
  match err with
  | Some e => cause e
  | None => None
  end.

(** [errors.Join(errs...)] for non-nil [errs], one at least: a
    [*joinError] whose text is the texts of [errs], one per line, and
    whose [Unwrap() []error] returns [errs]. *)
Definition Join (errs : list errval) : errval :=
  ErrVal (String.concat (String.String (ascii_of_nat 10) EmptyString)
            (map errText errs))
         None None None errs.

End errors.

(** [fmt.Errorf("%w; %w", first, second)]: a [*wrapErrors] whose
    [Unwrap() []error] returns the two errors. *)
Definition Errorf_ww (first second : errval) : errval :=
  ErrVal (errText first ++ "; " ++ errText second) None None None
         [first; second].

(** [fmt.Errorf(prefix + ": %w", inner)] for a [prefix] without [%]: a
    [*wrapError] whose text is the prefix followed by the text of the
    wrapped error. *)
Definition Errorf_w (prefix : string) (inner : errval) : errval :=
  ErrVal (prefix ++ ": " ++ errText inner) None None (Some inner) [].

(* ================================================================== *)
(** ** google.golang.org/grpc/status *)

Module status.

(** The value behind the error that the [Err] method of a status
    builds: an [*Error] whose [GRPCStatus()] returns the status and whose
    [Error()] is the rendering below; it has no [Unwrap]. *)
Definition errorOf (s : Status) : errval :=
  ErrVal ("rpc error: code = " ++ codes.String (Code s)
            ++ " desc = " ++ Message s)
         (Some (Some s)) None None [].

(** [status.Error(c, msg)] is [New(c, msg).Err()]: nil when [c] is
    [codes.OK]. *)
Definition Error (c : codes.Code) (msg : string) : error :=
  if N.eqb c codes.OK then None else Some (errorOf (mkStatus c msg)).

End status.

(* ================================================================== *)
(** ** k8s.io/apimachinery/pkg/api/errors *)

Module apierrors.

Definition knownReasons : list metav1.StatusReason :=
  [ metav1.StatusReasonUnauthorized; metav1.StatusReasonForbidden;
    metav1.StatusReasonNotFound; metav1.StatusReasonAlreadyExists;
    metav1.StatusReasonConflict; metav1.StatusReasonGone;
    metav1.StatusReasonInvalid; metav1.StatusReasonServerTimeout;
    metav1.StatusReasonStoreReadError;
    metav1.StatusReasonTimeout; metav1.StatusReasonTooManyRequests;
    metav1.StatusReasonBadRequest; metav1.StatusReasonMethodNotAllowed;
    metav1.StatusReasonNotAcceptable;
    metav1.StatusReasonRequestEntityTooLarge;
    metav1.StatusReasonUnsupportedMediaType;
    metav1.StatusReasonInternalError; metav1.StatusReasonExpired;
    metav1.StatusReasonServiceUnavailable ].

Definition isKnown (r : metav1.StatusReason) : bool :=
  existsb (String.eqb r) knownReasons.

(** [err.(APIStatus)] or, failing that, [errors.As(err, &status)]: the
    first value that implements [APIStatus], the error itself first,
    then its cause for a type with [Unwrap() error], or its causes from
    left to right, each searched in depth before the next, for a type
    with [Unwrap() []error]. *)
Fixpoint asAPIStatus (e : errval) : option metav1.Status :=
  match apiCap e with
  | Some st => Some st
  | None =>
      match cause e with
      | Some e' => asAPIStatus e'
      | None =>
          (fix firstOf (l : list errval) : option metav1.Status :=
             match l with
             | [] => None
             | x :: rest =>
                 match asAPIStatus x with
                 | Some st => Some st
                 | None => firstOf rest
                 end
             end) (causes e)
      end
  end.

(** [reasonAndCodeForError]: [(StatusReasonUnknown, 0)] for nil and for
    a chain without [APIStatus]. *)
Definition reasonAndCodeForError (err : error) : metav1.StatusReason * Z :=
  match err with
  | Some e =>
      match asAPIStatus e with
      | Some st => (metav1.Reason st, metav1.Code st)
      | None => (metav1.StatusReasonUnknown, 0%Z)
      end
  | None => (metav1.StatusReasonUnknown, 0%Z)
  end.

Definition ReasonForError (err : error) : metav1.StatusReason :=
  fst (reasonAndCodeForError err).

(** The shape most predicates share: the reason is the expected one, or
    the reason is not a known one and the HTTP code is the expected
    one. *)
Definition reasonOrCode (want : metav1.StatusReason) (http : Z)
           (err : error) : bool :=
  let '(reason, code) := reasonAndCodeForError err in
  if String.eqb reason want then true
  else if negb (isKnown reason) && Z.eqb code http then true
  else false.

Definition IsNotFound : error -> bool :=
  reasonOrCode metav1.StatusReasonNotFound 404.
Definition IsAlreadyExists (err : error) : bool :=
  String.eqb (ReasonForError err) metav1.StatusReasonAlreadyExists.
Definition IsInvalid : error -> bool :=
  reasonOrCode metav1.StatusReasonInvalid 422.
Definition IsMethodNotSupported : error -> bool :=
  reasonOrCode metav1.StatusReasonMethodNotAllowed 405.
Definition IsServiceUnavailable : error -> bool :=
  reasonOrCode metav1.StatusReasonServiceUnavailable 503.
Definition IsBadRequest : error -> bool :=
  reasonOrCode metav1.StatusReasonBadRequest 400.
Definition IsUnauthorized : error -> bool :=
  reasonOrCode metav1.StatusReasonUnauthorized 401.
Definition IsForbidden : error -> bool :=
  reasonOrCode metav1.StatusReasonForbidden 403.
Definition IsTimeout : error -> bool :=
  reasonOrCode metav1.StatusReasonTimeout 504.
(** No HTTP code is checked for a server timeout. *)
Definition IsServerTimeout (err : error) : bool :=
  String.eqb (ReasonForError err) metav1.StatusReasonServerTimeout.
Definition IsConflict : error -> bool :=
  reasonOrCode metav1.StatusReasonConflict 409.
(** The HTTP code 429 counts whatever the reason is. *)
Definition IsTooManyRequests (err : error) : bool :=
  let '(reason, code) := reasonAndCodeForError err in
  if String.eqb reason metav1.StatusReasonTooManyRequests then true
  else if Z.eqb code 429 then true
  else false.
Definition IsInternalError : error -> bool :=
  reasonOrCode metav1.StatusReasonInternalError 500.

(** [&StatusError{ErrStatus}]: [Error()] is the status message, and the
    value implements [APIStatus]. *)
Definition StatusError (message : string) (st : metav1.Status) : errval :=
  ErrVal message None (Some st) None [].

End apierrors.

(* ================================================================== *)
(** ** github.com/go-git/go-git/v5/plumbing/transport *)

Module giterr.

Definition ErrRepositoryNotFound : error :=
  errors.New "repository not found".

End giterr.

(* ================================================================== *)
(** ** util/grpc/errors.go *)

(** [func rewrapError(err error, code codes.Code) error] *)
Definition rewrapError (err : error) (code : codes.Code) : outcome error :=
  msg <- err_Error err ;;
  Returns (status.Error code msg).

(** [func UnwrapGRPCStatus(err error) *status.Status], on a non-nil
    error: the capability check, then [errors.Unwrap], then the recursive
    call on the cause. *)
Fixpoint UnwrapGRPCStatus_at (e : errval) : option Status :=
  match assertGRPCStatus (Some e) with
  | Some se => se
  | None =>
      match errors.Unwrap (Some e) with
      | None => None
      | Some e' => UnwrapGRPCStatus_at e'
      end
  end.

(** On nil the assertion fails and [errors.Unwrap(nil)] is nil. *)
Definition UnwrapGRPCStatus (err : error) : option Status :=
  match err with
  | Some e => UnwrapGRPCStatus_at e
  | None => None
  end.

(** The same function with its nesting of calls counted: [fuel] is the
    number of activations of [UnwrapGRPCStatus] allowed on the stack, and
    [None] means that one more would have been needed. *)
Fixpoint UnwrapGRPCStatus_within (fuel : nat) (err : error)
  : option (option Status) :=
  match fuel with
  | O => None
  | S fuel' =>
      match assertGRPCStatus err with
      | Some se => Some se
      | None =>
          match errors.Unwrap err with
          | None => Some None
          | Some e' => UnwrapGRPCStatus_within fuel' (Some e')
          end
      end
  end.

(** [func gitErrToGRPC(err error) error] *)
Definition gitErrToGRPC (err : error) : outcome error :=
  match err with
  | None => Returns None
  | Some _ =>
      errMsg <- err_Error err ;;
      let errMsg :=
        match UnwrapGRPCStatus err with
        | Some grpcStatus => Message grpcStatus
        | None => errMsg
        end in
      canonical <- err_Error giterr.ErrRepositoryNotFound ;;
      if String.eqb errMsg canonical
      then rewrapError (errors.New errMsg) codes.NotFound
      else Returns err
  end.

(** [func kubeErrToGRPC(err error) error]: the [switch] as the chain of
    tests it is, in source order. *)
Definition kubeErrToGRPC (err : error) : outcome error :=
  if apierrors.IsNotFound err then rewrapError err codes.NotFound
  else if apierrors.IsAlreadyExists err then rewrapError err codes.AlreadyExists
  else if apierrors.IsInvalid err then rewrapError err codes.InvalidArgument
  else if apierrors.IsMethodNotSupported err then rewrapError err codes.Unimplemented
  else if apierrors.IsServiceUnavailable err then rewrapError err codes.Unavailable
  else if apierrors.IsBadRequest err then rewrapError err codes.FailedPrecondition
  else if apierrors.IsUnauthorized err then rewrapError err codes.Unauthenticated
  else if apierrors.IsForbidden err then rewrapError err codes.PermissionDenied
  else if apierrors.IsTimeout err then rewrapError err codes.DeadlineExceeded
  else if apierrors.IsServerTimeout err then rewrapError err codes.Unavailable
  else if apierrors.IsConflict err then rewrapError err codes.Aborted
  else if apierrors.IsTooManyRequests err then rewrapError err codes.ResourceExhausted
  else if apierrors.IsInternalError err then rewrapError err codes.Internal
  else
    match UnwrapGRPCStatus err with
    | Some grpcStatus =>
        Returns (status.Error (Code grpcStatus) (Message grpcStatus))
    | None => Returns err
    end.

(** *** The interceptors

    A handler is a Go function with effects of its own (it sends the
    messages of a stream, it touches the server's state).  The effects
    are a transition of a world [W]; an interceptor is then a function
    from the world before the call to its results and the world after. *)
Section Interceptors.

Variables (Context Req Resp Info Srv ServerStream W : Type).

(** [grpc.UnaryHandler]: [func(ctx, req) (any, error)] *)
Definition UnaryHandler : Type := Context -> Req -> W -> (Resp * error) * W.

(** [grpc.StreamHandler]: [func(srv any, stream ServerStream) error] *)
Definition StreamHandler : Type := Srv -> ServerStream -> W -> error * W.

(** What a unary interceptor returns: [(resp, err)] and the world. *)
Definition UnaryServerInterceptor : Type :=
  Context -> Req -> Info -> UnaryHandler -> W -> outcome ((Resp * error) * W).

Definition StreamServerInterceptor : Type :=
  Srv -> ServerStream -> Info -> StreamHandler -> W -> outcome (error * W).

Definition ErrorCodeGitUnaryServerInterceptor : UnaryServerInterceptor :=
  fun ctx req _ handler w =>
    let '((resp, err), w') := handler ctx req w in
    err' <- gitErrToGRPC err ;;
    Returns ((resp, err'), w').

Definition ErrorCodeGitStreamServerInterceptor : StreamServerInterceptor :=
  fun srv ss _ handler w =>
    let '(err, w') := handler srv ss w in
    err' <- gitErrToGRPC err ;;
    Returns (err', w').

Definition ErrorCodeK8sUnaryServerInterceptor : UnaryServerInterceptor :=
  fun ctx req _ handler w =>
    let '((resp, err), w') := handler ctx req w in
    err' <- kubeErrToGRPC err ;;
    Returns ((resp, err'), w').

Definition ErrorCodeK8sStreamServerInterceptor : StreamServerInterceptor :=
  fun srv ss _ handler w =>
    let '(err, w') := handler srv ss w in
    err' <- kubeErrToGRPC err ;;
    Returns (err', w').

End Interceptors.

Arguments ErrorCodeGitUnaryServerInterceptor {Context Req Resp Info W}.
Arguments ErrorCodeGitStreamServerInterceptor {Info Srv ServerStream W}.
Arguments ErrorCodeK8sUnaryServerInterceptor {Context Req Resp Info W}.
Arguments ErrorCodeK8sStreamServerInterceptor {Info Srv ServerStream W}.

(* ================================================================== *)
(** ** Specification-side definitions *)

(** The rule table of the control-plane classifier as the specification
    lists it: thirteen (predicate, code) pairs in priority order. *)
Definition kubeRules : list ((error -> bool) * codes.Code) :=
  [ (apierrors.IsNotFound, codes.NotFound);
    (apierrors.IsAlreadyExists, codes.AlreadyExists);
    (apierrors.IsInvalid, codes.InvalidArgument);
    (apierrors.IsMethodNotSupported, codes.Unimplemented);
    (apierrors.IsServiceUnavailable, codes.Unavailable);
    (apierrors.IsBadRequest, codes.FailedPrecondition);
    (apierrors.IsUnauthorized, codes.Unauthenticated);
    (apierrors.IsForbidden, codes.PermissionDenied);
    (apierrors.IsTimeout, codes.DeadlineExceeded);
    (apierrors.IsServerTimeout, codes.Unavailable);
    (apierrors.IsConflict, codes.Aborted);
    (apierrors.IsTooManyRequests, codes.ResourceExhausted);
    (apierrors.IsInternalError, codes.Internal) ].

(** None of the rules listed in [rules] holds of [err]. *)
Definition noneFires (rules : list ((error -> bool) * codes.Code))
           (err : error) : bool :=
  forallb (fun r => negb (fst r err)) rules.

(** The first rule of the table that holds of [err], if any. *)
Definition firstRule (err : error) : option ((error -> bool) * codes.Code) :=
  find (fun r => fst r err) kubeRules.

(** The canonical text of the version-control rule. *)
Definition repositoryNotFound : string := "repository not found".

(** The effective message of the version-control classifier: the message
    of the embedded status when there is one, the error's own text
    otherwise. *)
Definition effectiveMessage (e : errval) : string :=
  match UnwrapGRPCStatus (Some e) with
  | Some s => Message s
  | None => errText e
  end.

(** The links of a chain, outermost first. *)
Fixpoint chain (e : errval) : list errval :=
  e :: match cause e with
       | Some e' => chain e'
       | None => []
       end.

(** The nesting depth of a chain: the number of causes below its
    outermost link. *)
Definition depth (e : errval) : nat := pred (length (chain e)).

Definition hasGRPCStatus (e : errval) : bool :=
  match grpcCap e with
  | Some _ => true
  | None => false
  end.

(** What the unwrapper is specified to find: the status returned by the
    outermost link of the chain that has the capability. *)
Definition outermostStatus (err : error) : option Status :=
  match err with
  | None => None
  | Some e =>
      match find hasGRPCStatus (chain e) with
      | Some link =>
          match grpcCap link with
          | Some p => p
          | None => None
          end
      | None => None
      end
  end.

(** [innermostOnly e] is [Some s] when the last link of the chain of [e]
    exposes the status [s] and no link before it has the capability. *)
Fixpoint innermostOnly (e : errval) : option Status :=
  match cause e with
  | None =>
      match grpcCap e with
      | Some (Some s) => Some s
      | _ => None
      end
  | Some e' =>
      match grpcCap e with
      | None => innermostOnly e'
      | Some _ => None
      end
  end.

(** [n] layers of [fmt.Errorf("...: %w", _)] around [e]. *)
Fixpoint wrapN (n : nat) (e : errval) : errval :=
  match n with
  | O => e
  | S n' => Errorf_w "context" (wrapN n' e)
  end.

(** Layers of annotation around [e], outermost first: each layer is a
    value with [Unwrap() error] and no other capability, as [fmt.Errorf]
    with one [%w] builds it, and [texts] are the texts of the layers,
    whatever the formats made them. *)
Fixpoint annotate (texts : list string) (e : errval) : errval :=
  match texts with
  | [] => e
  | text :: texts' => ErrVal text None None (Some (annotate texts' e)) []
  end.

(** The version-control rule fires on [e]. *)
Definition gitRuleFires (e : errval) : bool :=
  String.eqb (effectiveMessage e) repositoryNotFound.

(* ================================================================== *)
(** ** Sample errors *)

(** A control-plane error with reason [Conflict] and HTTP code 429: both
    [IsConflict] and [IsTooManyRequests] hold of it. *)
Definition conflict429 : errval :=
  apierrors.StatusError "too many conflicting writes"
    (metav1.mkStatus metav1.StatusReasonConflict 429).

(** A status error with an annotation around it. *)
Definition wrappedInternal : errval :=
  Errorf_w "fetch" (status.errorOf (mkStatus codes.Internal "boom")).

(** A value whose [GRPCStatus()] returns a status of code [OK]. *)
Definition statusOK : errval :=
  ErrVal "done" (Some (Some (mkStatus codes.OK "done"))) None None [].

(** A status error below fifty annotations. *)
Definition deepChain : errval :=
  wrapN 50 (status.errorOf (mkStatus codes.Unavailable "backend down")).

(** A status that is not [NotFound] but carries the canonical text. *)
Definition deniedRepository : errval :=
  Errorf_w "ls-remote"
    (status.errorOf (mkStatus codes.PermissionDenied repositoryNotFound)).

(** An error of neither domain, without status. *)
Definition networkError : errval :=
  Errorf_w "dial tcp" (ErrVal "connection refused" None None None []).

(** A control-plane [Forbidden] error. *)
Definition forbiddenPods : errval :=
  apierrors.StatusError "pods is forbidden"
    (metav1.mkStatus metav1.StatusReasonForbidden 403).

(** A stream handler that sends three messages, then fails; the world is
    the list of the messages sent so far, the latest first. *)
Definition threeThenForbidden : StreamHandler unit unit (list string) :=
  fun _ _ sent => (Some forbiddenPods, "m3" :: "m2" :: "m1" :: sent).

(** The codes the rules of [kubeErrToGRPC] never send, as its comment
    lists them, and [OK]. *)
Definition unmappedCodes : list codes.Code :=
  [ codes.OK; codes.Canceled; codes.Unknown; codes.OutOfRange; codes.DataLoss ].

(** The character [c] occurs in [s]. *)
Fixpoint occurs (c : ascii) (s : string) : bool :=
  match s with
  | EmptyString => false
  | String.String a rest => Ascii.eqb a c || occurs c rest
  end.

(** A [%w] annotation around the sentinel of the transport package. *)
Definition annotatedNotFound : errval :=
  match giterr.ErrRepositoryNotFound with
  | Some sentinel => Errorf_w "clone" sentinel
  | None => ErrVal "" None None None []
  end.

(** A control-plane error with the reason [StorageReadError] and the
    HTTP code 500. *)
Definition storageReadError : errval :=
  apierrors.StatusError "corrupt object"
    (metav1.mkStatus metav1.StatusReasonStoreReadError 500).

(** A control-plane [NotFound] error joined with another error by
    [fmt.Errorf("%w; %w", _, _)]. *)
Definition joinedNotFound : errval :=
  Errorf_ww
    (apierrors.StatusError "pods x not found"
       (metav1.mkStatus metav1.StatusReasonNotFound 404))
    (ErrVal "cleanup failed" None None None []).

(** A control-plane [Gone] error, one of the conditions without rule. *)
Definition goneError : errval :=
  apierrors.StatusError "resource version too old"
    (metav1.mkStatus metav1.StatusReasonGone 410).

(** A unary handler that succeeds and counts the call in the world. *)
Definition succeeds : UnaryHandler unit string string nat :=
  fun _ req calls => (("reply to " ++ req, None), S calls).

(** A unary handler that fails with [networkError]. *)
Definition fails : UnaryHandler unit string string nat :=
  fun _ req calls => (("", Some networkError), S calls).

(* ================================================================== *)
(** ** test/e2e/fixture/fixture.go: the helpers without I/O *)

Module fixture.

(** [strings.Split(s, sep)] for a separator of one byte: the pieces
    between the separators, one more than there are separators; a string
    without separator, the empty one included, is its only piece. *)
Fixpoint Split (s : string) (sep : ascii) : list string :=
  match s with
  | EmptyString => [EmptyString]
  | String.String a rest =>
      if Ascii.eqb a sep then EmptyString :: Split rest sep
      else
        match Split rest sep with
        | piece :: pieces => String.String a piece :: pieces
        | [] => [String.String a EmptyString]
        end
  end.

(** [func getResourceOverrideSplitKey(key string, customizeType string)
    string]; the two [fmt.Sprintf] calls are concatenations. *)
Definition getResourceOverrideSplitKey (key customizeType : string) : string :=
  let groupKind := key in
  let parts := Split key "/" in
  let groupKind :=
    if Nat.eqb (length parts) 2
    then nth 0 parts "" ++ "_" ++ nth 1 parts ""
    else groupKind in
  "resource.customizations." ++ customizeType ++ "." ++ groupKind.

(** The environment of the process, as [os.Getenv] reads it: the value
    of a variable, the empty string when it is not set. *)
Definition Env : Type := string -> string.

(** [func GetEnvWithDefault(envName, defaultValue string) string] *)
Definition GetEnvWithDefault (getenv : Env) (envName defaultValue : string)
  : string :=
  let r := getenv envName in
  if String.eqb r "" then defaultValue else r.

Definition ArgoCDNamespace : string := "argocd-e2e".
Definition ArgoCDAppNamespace : string := "argocd-e2e-external".
Definition TmpDir : string := "/tmp/argo-e2e".
Definition repoDir : string := "testdata.git".

Definition RepoURLTypeFile : string := "file".
Definition RepoURLTypeHTTPS : string := "https".
Definition RepoURLTypeHTTPSOrg : string := "https-org".
Definition RepoURLTypeHTTPSClientCert : string := "https-cc".
Definition RepoURLTypeHTTPSSubmodule : string := "https-sub".
Definition RepoURLTypeHTTPSSubmoduleParent : string := "https-par".
Definition RepoURLTypeSSH : string := "ssh".
Definition RepoURLTypeSSHSubmodule : string := "ssh-sub".
Definition RepoURLTypeSSHSubmoduleParent : string := "ssh-par".
Definition RepoURLTypeHelm : string := "helm".
Definition RepoURLTypeHelmParent : string := "helm-par".
Definition RepoURLTypeHelmOCI : string := "helm-oci".
Definition RepoURLTypeOCI : string := "oci".
Definition HelmOCIRegistryURL : string := "localhost:5000/myrepo".
Definition OCIRegistryURL : string := "oci://localhost:5000/my-oci-repo".

Definition EnvRepoURLTypeSSH : string := "ARGOCD_E2E_REPO_SSH".
Definition EnvRepoURLTypeSSHSubmodule : string := "ARGOCD_E2E_REPO_SSH_SUBMODULE".
Definition EnvRepoURLTypeSSHSubmoduleParent : string :=
  "ARGOCD_E2E_REPO_SSH_SUBMODULE_PARENT".
Definition EnvRepoURLTypeHTTPS : string := "ARGOCD_E2E_REPO_HTTPS".
Definition EnvRepoURLTypeHTTPSOrg : string := "ARGOCD_E2E_REPO_HTTPS_ORG".
Definition EnvRepoURLTypeHTTPSClientCert : string :=
  "ARGOCD_E2E_REPO_HTTPS_CLIENT_CERT".
Definition EnvRepoURLTypeHTTPSSubmodule : string :=
  "ARGOCD_E2E_REPO_HTTPS_SUBMODULE".
Definition EnvRepoURLTypeHTTPSSubmoduleParent : string :=
  "ARGOCD_E2E_REPO_HTTPS_SUBMODULE_PARENT".
Definition EnvRepoURLTypeHelm : string := "ARGOCD_E2E_REPO_HELM".
Definition EnvRepoURLDefault : string := "ARGOCD_E2E_REPO_DEFAULT".

(** [func TestNamespace() string] *)
Definition TestNamespace (getenv : Env) : string :=
  GetEnvWithDefault getenv "ARGOCD_E2E_NAMESPACE" ArgoCDNamespace.

(** [func AppNamespace() string] *)
Definition AppNamespace (getenv : Env) : string :=
  GetEnvWithDefault getenv "ARGOCD_E2E_APP_NAMESPACE" ArgoCDAppNamespace.

(** [func repoDirectory() string]: [path.Join(TmpDir, repoDir)], which
    for these two constants (clean, the second relative) is the first, a
    slash and the second. *)
Definition repoDirectory : string := TmpDir ++ "/" ++ repoDir.

(** [func RepoURL(urlType RepoURLType) string]: the [switch] on the
    value of the type, its cases in source order. *)
Definition RepoURL (getenv : Env) (urlType : string) : string :=
  if String.eqb urlType RepoURLTypeSSH then
    GetEnvWithDefault getenv EnvRepoURLTypeSSH
      "ssh://root@localhost:2222/tmp/argo-e2e/testdata.git"
  else if String.eqb urlType RepoURLTypeSSHSubmodule then
    GetEnvWithDefault getenv EnvRepoURLTypeSSHSubmodule
      "ssh://root@localhost:2222/tmp/argo-e2e/submodule.git"
  else if String.eqb urlType RepoURLTypeSSHSubmoduleParent then
    GetEnvWithDefault getenv EnvRepoURLTypeSSHSubmoduleParent
      "ssh://root@localhost:2222/tmp/argo-e2e/submoduleParent.git"
  else if String.eqb urlType RepoURLTypeHTTPS then
    GetEnvWithDefault getenv EnvRepoURLTypeHTTPS
      "https://localhost:9443/argo-e2e/testdata.git"
  else if String.eqb urlType RepoURLTypeHTTPSOrg then
    GetEnvWithDefault getenv EnvRepoURLTypeHTTPSOrg
      "https://localhost:9443/argo-e2e"
  else if String.eqb urlType RepoURLTypeHTTPSClientCert then
    GetEnvWithDefault getenv EnvRepoURLTypeHTTPSClientCert
      "https://localhost:9444/argo-e2e/testdata.git"
  else if String.eqb urlType RepoURLTypeHTTPSSubmodule then
    GetEnvWithDefault getenv EnvRepoURLTypeHTTPSSubmodule
      "https://localhost:9443/argo-e2e/submodule.git"
  else if String.eqb urlType RepoURLTypeHTTPSSubmoduleParent then
    GetEnvWithDefault getenv EnvRepoURLTypeHTTPSSubmoduleParent
      "https://localhost:9443/argo-e2e/submoduleParent.git"
  else if String.eqb urlType RepoURLTypeHelm then
    GetEnvWithDefault getenv EnvRepoURLTypeHelm
      "https://localhost:9444/argo-e2e/testdata.git/helm-repo/local"
  else if String.eqb urlType RepoURLTypeHelmParent then
    GetEnvWithDefault getenv EnvRepoURLTypeHelm
      "https://localhost:9444/argo-e2e/testdata.git/helm-repo"
  else if String.eqb urlType RepoURLTypeOCI then OCIRegistryURL
  else if String.eqb urlType RepoURLTypeHelmOCI then HelmOCIRegistryURL
  else GetEnvWithDefault getenv EnvRepoURLDefault ("file://" ++ repoDirectory).

(** The number of occurrences of [c] in [s]. *)
Fixpoint count (c : ascii) (s : string) : nat :=
  match s with
  | EmptyString => 0
  | String.String a rest => (if Ascii.eqb a c then 1 else 0) + count c rest
  end.

(** An environment with one variable set. *)
Definition oneVar (name value : string) : Env :=
  fun n => if String.eqb n name then value else "".

End fixture.

(* ================================================================== *)
(** ** Basic facts *)

Lemma status_Error_not_OK (c : codes.Code) (msg : string) :
  c <> codes.OK ->
  status.Error c msg = Some (status.errorOf (mkStatus c msg)).
Proof.
  intros Hc. unfold status.Error.
  destruct (N.eqb_spec c codes.OK) as [E | _]; [contradiction | reflexivity].
Qed.

Lemma rewrapError_value (e : errval) (c : codes.Code) :
  rewrapError (Some e) c = Returns (status.Error c (errText e)).
Proof. reflexivity. Qed.

Lemma UnwrapGRPCStatus_unfold (err : error) :
  UnwrapGRPCStatus err =
  match assertGRPCStatus err with
  | Some se => se
  | None =>
      match errors.Unwrap err with
      | None => None
      | Some e' => UnwrapGRPCStatus (Some e')
      end
  end.
Proof. destruct err as [[t g a c l] | ]; reflexivity. Qed.

Lemma UnwrapGRPCStatus_errorOf (s : Status) :
  UnwrapGRPCStatus (Some (status.errorOf s)) = Some s.
Proof. reflexivity. Qed.

(** Induction along a chain, from the innermost link outwards. *)
Lemma errval_chain_ind (P : errval -> Prop) :
  (forall t g a l, P (ErrVal t g a None l)) ->
  (forall t g a l e', P e' -> P (ErrVal t g a (Some e') l)) ->
  forall e, P e.
Proof.
  intros Hend Hlink.
  fix IH 1. intros [t g a [e' | ] l].
  - apply Hlink, IH.
  - apply Hend.
Qed.

(** The predicates of [apierrors] only read the reason and the HTTP code
    found along the chain. *)
Lemma predicates_without_APIStatus (err : error) :
  apierrors.reasonAndCodeForError err = (metav1.StatusReasonUnknown, 0%Z) ->
  noneFires kubeRules err = true.
Proof.
  intros H.
  unfold noneFires, kubeRules. cbn [forallb fst].
  unfold apierrors.IsNotFound, apierrors.IsAlreadyExists, apierrors.IsInvalid,
    apierrors.IsMethodNotSupported, apierrors.IsServiceUnavailable,
    apierrors.IsBadRequest, apierrors.IsUnauthorized, apierrors.IsForbidden,
    apierrors.IsTimeout, apierrors.IsServerTimeout, apierrors.IsConflict,
    apierrors.IsTooManyRequests, apierrors.IsInternalError,
    apierrors.reasonOrCode, apierrors.ReasonForError.
  rewrite H. reflexivity.
Qed.

Lemma noneFires_nil : noneFires kubeRules None = true.
Proof. reflexivity. Qed.

Lemma noneFires_errorOf (s : Status) :
  noneFires kubeRules (Some (status.errorOf s)) = true.
Proof. apply predicates_without_APIStatus. reflexivity. Qed.

Lemma find_none_fires (rules : list ((error -> bool) * codes.Code)) (err : error) :
  noneFires rules err = true -> find (fun r => fst r err) rules = None.
Proof.
  induction rules as [ | r rules IH]; cbn; [reflexivity | ].
  intros H. apply andb_true_iff in H as [Hr Hrest].
  apply negb_true_iff in Hr. rewrite Hr. now apply IH.
Qed.

Lemma find_first_fires (before after : list ((error -> bool) * codes.Code))
      (r : (error -> bool) * codes.Code) (err : error) :
  noneFires before err = true ->
  fst r err = true ->
  find (fun q => fst q err) (before ++ r :: after) = Some r.
Proof.
  induction before as [ | q before IH]; cbn; intros Hb Hr.
  - now rewrite Hr.
  - apply andb_true_iff in Hb as [Hq Hrest].
    apply negb_true_iff in Hq. rewrite Hq. now apply IH.
Qed.

(** The [switch] of [kubeErrToGRPC] is a search of the rule table. *)
Lemma kubeErrToGRPC_table (err : error) :
  kubeErrToGRPC err =
  match firstRule err with
  | Some (_, code) => rewrapError err code
  | None =>
      match UnwrapGRPCStatus err with
      | Some s => Returns (status.Error (Code s) (Message s))
      | None => Returns err
      end
  end.
Proof.
  unfold kubeErrToGRPC, firstRule, kubeRules. cbn [find fst].
  repeat match goal with
         | |- context [if ?b then _ else _] => destruct b; [reflexivity | ]
         end.
  reflexivity.
Qed.

(** A rule of the table never sends [codes.OK]. *)
Lemma kubeRules_codes_not_OK (r : (error -> bool) * codes.Code) :
  In r kubeRules -> snd r <> codes.OK.
Proof.
  unfold kubeRules. cbn [In].
  intros H.
  repeat (destruct H as [<- | H]; [discriminate | ]).
  contradiction.
Qed.

(** A rule that fires does so on a non-nil error. *)
Lemma firstRule_nil : firstRule None = None.
Proof. reflexivity. Qed.

Lemma rewrapError_rule (e : errval) (r : (error -> bool) * codes.Code) :
  In r kubeRules ->
  rewrapError (Some e) (snd r) =
  Returns (Some (status.errorOf (mkStatus (snd r) (errText e)))).
Proof.
  intros Hin. rewrite rewrapError_value.
  now rewrite status_Error_not_OK by now apply kubeRules_codes_not_OK.
Qed.

Lemma firstRule_In (err : error) (r : (error -> bool) * codes.Code) :
  firstRule err = Some r -> In r kubeRules /\ fst r err = true.
Proof. unfold firstRule. apply find_some. Qed.

(** Neither classifier panics: [err.Error()] is only reached on a non-nil
    error. *)
Lemma gitErrToGRPC_returns (err : error) :
  exists r, gitErrToGRPC err = Returns r.
Proof.
  destruct err as [e | ]; [ | now exists None].
  unfold gitErrToGRPC. cbn [err_Error bind giterr.ErrRepositoryNotFound errors.New errText].
  destruct (String.eqb _ _); eexists; reflexivity.
Qed.

Lemma kubeErrToGRPC_returns (err : error) :
  exists r, kubeErrToGRPC err = Returns r.
Proof.
  rewrite kubeErrToGRPC_table.
  destruct (firstRule err) as [[p c] | ] eqn:Hfirst.
  - destruct err as [e | ]; [ | discriminate Hfirst].
    rewrite rewrapError_value. eexists; reflexivity.
  - destruct (UnwrapGRPCStatus err); eexists; reflexivity.
Qed.

(** The version-control classifier in closed form. *)
Lemma gitErrToGRPC_value (e : errval) :
  gitErrToGRPC (Some e) =
  Returns (if String.eqb (effectiveMessage e) repositoryNotFound
           then Some (status.errorOf (mkStatus codes.NotFound (effectiveMessage e)))
           else Some e).
Proof.
  unfold gitErrToGRPC, effectiveMessage.
  cbn [err_Error bind giterr.ErrRepositoryNotFound errors.New errText].
  unfold repositoryNotFound.
  destruct (UnwrapGRPCStatus (Some e)) as [s | ];
    destruct (String.eqb _ _); reflexivity.
Qed.

(** The default branch of the control-plane classifier. *)
Lemma kubeErrToGRPC_default (err : error) :
  noneFires kubeRules err = true ->
  kubeErrToGRPC err =
  match UnwrapGRPCStatus err with
  | Some s => Returns (status.Error (Code s) (Message s))
  | None => Returns err
  end.
Proof.
  intros H. rewrite kubeErrToGRPC_table. unfold firstRule.
  now rewrite find_none_fires.
Qed.

Lemma firstRule_none_noneFires (err : error) :
  firstRule err = None -> noneFires kubeRules err = true.
Proof.
  unfold firstRule, noneFires. intros H.
  apply forallb_forall. intros r Hin.
  apply negb_true_iff. apply (find_none _ _ H r Hin).
Qed.

(** Re-emitting the status of a status error gives the same error. *)
Lemma status_Error_eta (s : Status) :
  Code s <> codes.OK ->
  status.Error (Code s) (Message s) = Some (status.errorOf s).
Proof.
  intros H. rewrite status_Error_not_OK by assumption. now destruct s.
Qed.

(** The counted unwrapper agrees with the plain one as soon as the fuel
    exceeds the depth of the chain. *)
Lemma UnwrapGRPCStatus_within_depth (e : errval) (fuel : nat) :
  depth e < fuel ->
  UnwrapGRPCStatus_within fuel (Some e) = Some (UnwrapGRPCStatus (Some e)).
Proof.
  revert fuel. induction e as [t g a l | t g a l e' IH] using errval_chain_ind;
    intros [ | fuel] Hlt; try (exfalso; lia).
  - destruct g; reflexivity.
  - destruct g as [p | ]; [reflexivity | ].
    cbn [UnwrapGRPCStatus_within assertGRPCStatus grpcCap errors.Unwrap cause].
    rewrite IH; [reflexivity | ].
    unfold depth in *. cbn [chain cause length pred] in Hlt.
    destruct e'; cbn [chain length pred] in *. lia.
Qed.

Lemma wrapN_depth (n : nat) (e : errval) : depth (wrapN n e) = n + depth e.
Proof.
  induction n as [ | n IH]; [reflexivity | ].
  unfold depth in *. cbn [wrapN Errorf_w chain cause length pred plus].
  destruct (wrapN n e); cbn [chain length pred] in *. lia.
Qed.

Lemma innermostOnly_found (e : errval) (s : Status) :
  innermostOnly e = Some s -> UnwrapGRPCStatus (Some e) = Some s.
Proof.
  induction e as [t g a l | t g a l e' IH] using errval_chain_ind;
    cbn [innermostOnly cause grpcCap]; intros H.
  - destruct g as [[s' | ] | ]; try discriminate. exact H.
  - destruct g as [p | ]; [discriminate | ].
    rewrite UnwrapGRPCStatus_unfold.
    cbn [assertGRPCStatus grpcCap errors.Unwrap cause]. now apply IH.
Qed.

Lemma innermostOnly_needs_depth (e : errval) (s : Status) (fuel : nat) :
  innermostOnly e = Some s -> fuel <= depth e ->
  UnwrapGRPCStatus_within fuel (Some e) = None.
Proof.
  revert fuel. induction e as [t g a l | t g a l e' IH] using errval_chain_ind;
    cbn [innermostOnly cause grpcCap]; intros fuel H Hle.
  - unfold depth in Hle. cbn in Hle.
    replace fuel with O by lia. reflexivity.
  - destruct g as [p | ]; [discriminate | ].
    destruct fuel as [ | fuel]; [reflexivity | ].
    cbn [UnwrapGRPCStatus_within assertGRPCStatus grpcCap errors.Unwrap cause].
    apply IH; [assumption | ].
    unfold depth in *. cbn [chain cause length pred] in Hle.
    destruct e'; cbn [chain length pred] in *. lia.
Qed.

(* ================================================================== *)
(** ** The control-plane classifier *)

(** C1.  For a non-nil error, [kubeErrToGRPC] searches the thirteen rules
    in the order of [kubeRules] (not-found, already-exists, invalid,
    method-not-supported, service-unavailable, bad-request, unauthorized,
    forbidden, timeout, server-timeout, conflict, too-many-requests,
    internal-error) and the first rule whose predicate holds decides:
    wherever the table is cut as [before ++ (p, code) :: after] with no
    rule of [before] holding and [p] holding, the result is the status
    error carrying [code] and the text of the error, whatever the rules
    of [after] say.  So of two predicates that hold, the earlier one
    determines the code. *)
Theorem kubeErrToGRPC_first_match_wins
        (e : errval) (before after : list ((error -> bool) * codes.Code))
        (p : error -> bool) (code : codes.Code) :
  kubeRules = (before ++ (p, code) :: after)%list ->
  noneFires before (Some e) = true ->
  p (Some e) = true ->
  kubeErrToGRPC (Some e) =
  Returns (Some (status.errorOf (mkStatus code (errText e)))).
Proof.
  intros Hcut Hbefore Hp.
  rewrite kubeErrToGRPC_table. unfold firstRule. rewrite Hcut.
  rewrite (find_first_fires before after (p, code)) by assumption.
  apply (rewrapError_rule e (p, code)).
  rewrite Hcut. apply in_elt.
Qed.

(** [conflict429] satisfies the eleventh and the twelfth predicate; the
    eleventh decides and the code is [Aborted]. *)
Lemma kubeErrToGRPC_first_match_wins_witness :
  apierrors.IsConflict (Some conflict429) = true /\
  apierrors.IsTooManyRequests (Some conflict429) = true /\
  kubeErrToGRPC (Some conflict429) =
  Returns (Some (status.errorOf
                   (mkStatus codes.Aborted "too many conflicting writes"))).
Proof.
  split; [reflexivity | split; [reflexivity | ]].
  apply (kubeErrToGRPC_first_match_wins conflict429
           (firstn 10 kubeRules) (skipn 11 kubeRules)
           apierrors.IsConflict codes.Aborted);
    reflexivity.
Defined.

(** [StorageReadError] is a known reason, so the HTTP code 500 is not
    read and no rule fires: the error is returned as it is. *)
Example kubeErrToGRPC_store_read_error :
  noneFires kubeRules (Some storageReadError) = true /\
  kubeErrToGRPC (Some storageReadError) = Returns (Some storageReadError).
Proof. split; reflexivity. Qed.

(** The predicates look into the errors that a value joins: the
    not-found rule fires on [joinedNotFound], and the message is the
    text of the joined value. *)
Example kubeErrToGRPC_joined_not_found :
  apierrors.IsNotFound (Some joinedNotFound) = true /\
  errors.Unwrap (Some joinedNotFound) = None /\
  kubeErrToGRPC (Some joinedNotFound) =
  Returns (Some (status.errorOf
                   (mkStatus codes.NotFound "pods x not found; cleanup failed"))).
Proof. repeat split. Qed.

(* ================================================================== *)
(** ** Nil *)

(** C5.  Both classifiers send nil to nil: [gitErrToGRPC(nil)] and
    [kubeErrToGRPC(nil)] return nil (and do not panic). *)
Theorem classifiers_nil :
  gitErrToGRPC None = Returns None /\ kubeErrToGRPC None = Returns None.
Proof. split; reflexivity. Qed.

(* ================================================================== *)
(** ** The status unwrapper *)

(** C3.  [UnwrapGRPCStatus] returns what the outermost link having the
    status capability returns ([outermostStatus]).  The capability is
    looked at before the cause at every link: a link that has it decides,
    whatever lies below; a link that has not passes the question to its
    cause; and a link with neither capability nor cause gives nil, as
    does the nil error. *)
Theorem UnwrapGRPCStatus_outermost (err : error) :
  UnwrapGRPCStatus err = outermostStatus err /\
  (forall p, assertGRPCStatus err = Some p -> UnwrapGRPCStatus err = p) /\
  (assertGRPCStatus err = None ->
   UnwrapGRPCStatus err = UnwrapGRPCStatus (errors.Unwrap err)) /\
  (assertGRPCStatus err = None -> errors.Unwrap err = None ->
   UnwrapGRPCStatus err = None).
Proof.
  split; [ | split; [ | split]].
  - destruct err as [e | ]; [ | reflexivity].
    induction e as [t g a l | t g a l e' IH] using errval_chain_ind.
    + destruct g as [p | ]; reflexivity.
    + destruct g as [p | ]; [reflexivity | ].
      rewrite UnwrapGRPCStatus_unfold.
      cbn [assertGRPCStatus grpcCap errors.Unwrap cause].
      rewrite IH. reflexivity.
  - intros p H. rewrite UnwrapGRPCStatus_unfold, H. reflexivity.
  - intros H. rewrite UnwrapGRPCStatus_unfold, H.
    destruct (errors.Unwrap err); reflexivity.
  - intros H Hend. rewrite UnwrapGRPCStatus_unfold, H, Hend. reflexivity.
Qed.

(** An outer status hides an inner one; an annotation lets the inner one
    through; a bare text gives nil. *)
Lemma UnwrapGRPCStatus_outermost_witness :
  UnwrapGRPCStatus
    (Some (ErrVal "outer" (Some (Some (mkStatus codes.Aborted "outer")))
                  None (Some wrappedInternal) []))
  = Some (mkStatus codes.Aborted "outer") /\
  UnwrapGRPCStatus (Some wrappedInternal)
  = UnwrapGRPCStatus (Some (status.errorOf (mkStatus codes.Internal "boom"))) /\
  UnwrapGRPCStatus (errors.New "plain") = None.
Proof.
  split; [ | split].
  - apply (proj1 (proj2 (UnwrapGRPCStatus_outermost _))). reflexivity.
  - apply (proj1 (proj2 (proj2 (UnwrapGRPCStatus_outermost (Some wrappedInternal))))).
    reflexivity.
  - apply (proj2 (proj2 (proj2 (UnwrapGRPCStatus_outermost _)))); reflexivity.
Defined.

(** C7.  On a chain of depth [N] whose innermost link alone exposes a
    status [s], [UnwrapGRPCStatus] returns [s]; the calls nest exactly
    [N + 1] deep: [N + 1] activations are enough and no fewer are. *)
Theorem UnwrapGRPCStatus_innermost (N : nat) (e : errval) (s : Status) :
  depth e = N ->
  innermostOnly e = Some s ->
  UnwrapGRPCStatus (Some e) = Some s /\
  UnwrapGRPCStatus_within (S N) (Some e) = Some (Some s) /\
  (forall fuel, fuel <= N -> UnwrapGRPCStatus_within fuel (Some e) = None).
Proof.
  intros HN Hs. pose proof (innermostOnly_found e s Hs) as Hfound.
  split; [exact Hfound | split].
  - rewrite UnwrapGRPCStatus_within_depth by lia. now rewrite Hfound.
  - intros fuel Hle. apply (innermostOnly_needs_depth e s); [assumption | lia].
Qed.

(** Depth fifty. *)
Lemma UnwrapGRPCStatus_innermost_witness :
  depth deepChain = 50 /\
  UnwrapGRPCStatus (Some deepChain) =
  Some (mkStatus codes.Unavailable "backend down") /\
  UnwrapGRPCStatus_within 51 (Some deepChain) =
  Some (Some (mkStatus codes.Unavailable "backend down")).
Proof.
  assert (Hd : depth deepChain = 50) by reflexivity.
  assert (Hs : innermostOnly deepChain =
               Some (mkStatus codes.Unavailable "backend down"))
    by reflexivity.
  destruct (UnwrapGRPCStatus_innermost 50 deepChain _ Hd Hs) as [H1 [H2 _]].
  split; [exact Hd | split; [exact H1 | exact H2]].
Defined.

(* ================================================================== *)
(** ** The version-control classifier *)

(** C4.  For a non-nil error [e], [gitErrToGRPC] compares the effective
    message (the message of the embedded status when [UnwrapGRPCStatus]
    finds one, the text of [e] otherwise) with the canonical
    "repository not found": when they are equal the result is a new
    status error with code [NotFound] and that message, and otherwise the
    result is [e] itself. *)
Theorem gitErrToGRPC_effective_message (e : errval) :
  effectiveMessage e =
    match UnwrapGRPCStatus (Some e) with
    | Some s => Message s
    | None => errText e
    end /\
  err_Error giterr.ErrRepositoryNotFound = Returns repositoryNotFound /\
  gitErrToGRPC (Some e) =
    Returns (if String.eqb (effectiveMessage e) repositoryNotFound
             then Some (status.errorOf
                          (mkStatus codes.NotFound (effectiveMessage e)))
             else Some e).
Proof.
  split; [reflexivity | split; [reflexivity | apply gitErrToGRPC_value]].
Qed.

(** C10.  When the embedded status carries the canonical message, its
    code [c] does not count, nor does the text of the outer error: the
    result is the status error with code [NotFound] and the message of
    the status. *)
Theorem gitErrToGRPC_overrides_code (e : errval) (c : codes.Code) :
  UnwrapGRPCStatus (Some e) = Some (mkStatus c repositoryNotFound) ->
  gitErrToGRPC (Some e) =
  Returns (Some (status.errorOf (mkStatus codes.NotFound repositoryNotFound))).
Proof.
  intros H. rewrite gitErrToGRPC_value.
  unfold effectiveMessage. rewrite H. reflexivity.
Qed.

(** [deniedRepository] embeds [PermissionDenied] and its own text is
    longer than the canonical one. *)
Lemma gitErrToGRPC_overrides_code_witness :
  err_Error (Some deniedRepository) =
  Returns "ls-remote: rpc error: code = PermissionDenied desc = repository not found" /\
  UnwrapGRPCStatus (Some deniedRepository) =
  Some (mkStatus codes.PermissionDenied repositoryNotFound) /\
  gitErrToGRPC (Some deniedRepository) =
  Returns (Some (status.errorOf (mkStatus codes.NotFound repositoryNotFound))).
Proof.
  split; [reflexivity | split; [reflexivity | ]].
  apply (gitErrToGRPC_overrides_code deniedRepository codes.PermissionDenied).
  reflexivity.
Defined.

(* ================================================================== *)
(** ** Embedded statuses and unrecognised errors *)

(** C2, as stated, fails for the version-control classifier:
    [wrappedInternal] exposes the status [(Internal, "boom")], the
    repository-not-found rule does not fire on it, and [gitErrToGRPC]
    returns it as it came, annotation included, not the bare status
    error. *)
Lemma gitErrToGRPC_keeps_wrapping :
  UnwrapGRPCStatus (Some wrappedInternal) = Some (mkStatus codes.Internal "boom") /\
  gitRuleFires wrappedInternal = false /\
  gitErrToGRPC (Some wrappedInternal) = Returns (Some wrappedInternal) /\
  gitErrToGRPC (Some wrappedInternal) <>
    Returns (Some (status.errorOf (mkStatus codes.Internal "boom"))) /\
  err_Error (Some wrappedInternal) =
    Returns "fetch: rpc error: code = Internal desc = boom".
Proof.
  repeat split; try reflexivity. discriminate.
Qed.

(** A status of code [OK] found in the default branch of [kubeErrToGRPC]
    is re-emitted through [status.Error], which gives nil for [OK]. *)
Lemma kubeErrToGRPC_embedded_OK :
  UnwrapGRPCStatus (Some statusOK) = Some (mkStatus codes.OK "done") /\
  noneFires kubeRules (Some statusOK) = true /\
  kubeErrToGRPC (Some statusOK) = Returns None.
Proof. repeat split. Qed.

(** C2, amended.  Let [e] expose an embedded status [s].  When no rule
    of the control-plane table holds of [e] and the code of [s] is not
    [OK], [kubeErrToGRPC] returns the bare status error of [s]: a value
    whose own [GRPCStatus()] is [s] and which has no cause.  When the
    version-control rule does not fire, [gitErrToGRPC] returns [e]
    itself, from which [s] can still be unwrapped. *)
Theorem embedded_status_default (e : errval) (s : Status) :
  UnwrapGRPCStatus (Some e) = Some s ->
  (noneFires kubeRules (Some e) = true ->
   Code s <> codes.OK ->
   kubeErrToGRPC (Some e) = Returns (Some (status.errorOf s)) /\
   grpcCap (status.errorOf s) = Some (Some s) /\
   cause (status.errorOf s) = None) /\
  (gitRuleFires e = false ->
   gitErrToGRPC (Some e) = Returns (Some e)).
Proof.
  intros Hs. split.
  - intros Hnone Hcode. split; [ | split; reflexivity].
    rewrite kubeErrToGRPC_default by assumption.
    rewrite Hs. now rewrite status_Error_eta.
  - intros Hgit. rewrite gitErrToGRPC_value.
    unfold gitRuleFires in Hgit. now rewrite Hgit.
Qed.

Lemma embedded_status_default_witness :
  kubeErrToGRPC (Some wrappedInternal) =
    Returns (Some (status.errorOf (mkStatus codes.Internal "boom"))) /\
  gitErrToGRPC (Some wrappedInternal) = Returns (Some wrappedInternal).
Proof.
  assert (Hs : UnwrapGRPCStatus (Some wrappedInternal) =
               Some (mkStatus codes.Internal "boom")) by reflexivity.
  destruct (embedded_status_default wrappedInternal _ Hs) as [Hkube Hgit].
  split.
  - apply Hkube; [reflexivity | discriminate].
  - apply Hgit. reflexivity.
Defined.

(** C9.  A non-nil error [e] that exposes no embedded status and on
    which no rule of the domain fires is returned as it is, by either
    classifier: the same value, with its text and its chain. *)
Theorem unrecognised_error_unchanged (e : errval) :
  UnwrapGRPCStatus (Some e) = None ->
  (noneFires kubeRules (Some e) = true ->
   kubeErrToGRPC (Some e) = Returns (Some e)) /\
  (gitRuleFires e = false ->
   gitErrToGRPC (Some e) = Returns (Some e)).
Proof.
  intros Hs. split.
  - intros Hnone. rewrite kubeErrToGRPC_default by assumption.
    now rewrite Hs.
  - intros Hgit. rewrite gitErrToGRPC_value.
    unfold gitRuleFires in Hgit. now rewrite Hgit.
Qed.

Lemma unrecognised_error_unchanged_witness :
  kubeErrToGRPC (Some networkError) = Returns (Some networkError) /\
  gitErrToGRPC (Some networkError) = Returns (Some networkError) /\
  err_Error (Some networkError) = Returns "dial tcp: connection refused".
Proof.
  assert (Hs : UnwrapGRPCStatus (Some networkError) = None) by reflexivity.
  destruct (unrecognised_error_unchanged networkError Hs) as [Hkube Hgit].
  split; [apply Hkube; reflexivity | ].
  split; [apply Hgit; reflexivity | reflexivity].
Defined.

(* ================================================================== *)
(** ** Idempotence *)

Lemma kubeErrToGRPC_errorOf (s : Status) :
  Code s <> codes.OK ->
  kubeErrToGRPC (Some (status.errorOf s)) = Returns (Some (status.errorOf s)).
Proof.
  intros H. rewrite kubeErrToGRPC_default by apply noneFires_errorOf.
  rewrite UnwrapGRPCStatus_errorOf. now rewrite status_Error_eta.
Qed.

(** C6.  Each classifier returns, and what it returns is a fixed point
    of it: classifying the result again gives the same error, hence the
    same code and message. *)
Theorem classification_idempotent (err : error) :
  (exists r, gitErrToGRPC err = Returns r /\ gitErrToGRPC r = Returns r) /\
  (exists r, kubeErrToGRPC err = Returns r /\ kubeErrToGRPC r = Returns r).
Proof.
  split.
  - destruct err as [e | ]; [ | now exists None].
    rewrite gitErrToGRPC_value.
    destruct (String.eqb (effectiveMessage e) repositoryNotFound) eqn:Hfire;
      eexists; (split; [reflexivity | ]).
    + rewrite gitErrToGRPC_value.
      change (effectiveMessage (status.errorOf _)) with (effectiveMessage e).
      now rewrite Hfire.
    + rewrite gitErrToGRPC_value. now rewrite Hfire.
  - rewrite kubeErrToGRPC_table.
    destruct (firstRule err) as [[p c] | ] eqn:Hfirst.
    + destruct err as [e | ]; [ | discriminate Hfirst].
      apply firstRule_In in Hfirst as [Hin _].
      pose proof (rewrapError_rule e (p, c) Hin) as Hrule.
      cbn [snd] in Hrule. rewrite Hrule.
      eexists; split; [reflexivity | ].
      apply kubeErrToGRPC_errorOf.
      apply (kubeRules_codes_not_OK (p, c) Hin).
    + destruct (UnwrapGRPCStatus err) as [s | ] eqn:Hs.
      * eexists; split; [reflexivity | ].
        unfold status.Error.
        destruct (N.eqb_spec (Code s) codes.OK) as [E | NE];
          [reflexivity | ].
        now apply kubeErrToGRPC_errorOf.
      * exists err. split; [reflexivity | ].
        rewrite kubeErrToGRPC_table, Hfirst, Hs. reflexivity.
Qed.

(* ================================================================== *)
(** ** The interceptors *)

(** C8.  Each of the four interceptors calls the handler once, on the
    arguments it was given, and returns: the world after it is the world
    the handler left (for a stream, the messages the handler sent, no
    more and no fewer), the response of a unary call is the handler's
    response, and the error is the classifier of the domain applied to
    the handler's error. *)
Theorem interceptors_classify_terminal_error
        (Context Req Resp Info Srv ServerStream W : Type) :
  (forall ctx req info (handler : UnaryHandler Context Req Resp W) w,
      exists err',
        gitErrToGRPC (snd (fst (handler ctx req w))) = Returns err' /\
        ErrorCodeGitUnaryServerInterceptor ctx req (info : Info) handler w =
        Returns ((fst (fst (handler ctx req w)), err'), snd (handler ctx req w))) /\
  (forall srv ss info (handler : StreamHandler Srv ServerStream W) w,
      exists err',
        gitErrToGRPC (fst (handler srv ss w)) = Returns err' /\
        ErrorCodeGitStreamServerInterceptor srv ss (info : Info) handler w =
        Returns (err', snd (handler srv ss w))) /\
  (forall ctx req info (handler : UnaryHandler Context Req Resp W) w,
      exists err',
        kubeErrToGRPC (snd (fst (handler ctx req w))) = Returns err' /\
        ErrorCodeK8sUnaryServerInterceptor ctx req (info : Info) handler w =
        Returns ((fst (fst (handler ctx req w)), err'), snd (handler ctx req w))) /\
  (forall srv ss info (handler : StreamHandler Srv ServerStream W) w,
      exists err',
        kubeErrToGRPC (fst (handler srv ss w)) = Returns err' /\
        ErrorCodeK8sStreamServerInterceptor srv ss (info : Info) handler w =
        Returns (err', snd (handler srv ss w))).
Proof.
  repeat split; intros.
  - unfold ErrorCodeGitUnaryServerInterceptor.
    destruct (handler ctx req w) as [[resp err] w']. cbn [fst snd].
    destruct (gitErrToGRPC_returns err) as [r Hr].
    exists r. now rewrite Hr.
  - unfold ErrorCodeGitStreamServerInterceptor.
    destruct (handler srv ss w) as [err w']. cbn [fst snd].
    destruct (gitErrToGRPC_returns err) as [r Hr].
    exists r. now rewrite Hr.
  - unfold ErrorCodeK8sUnaryServerInterceptor.
    destruct (handler ctx req w) as [[resp err] w']. cbn [fst snd].
    destruct (kubeErrToGRPC_returns err) as [r Hr].
    exists r. now rewrite Hr.
  - unfold ErrorCodeK8sStreamServerInterceptor.
    destruct (handler srv ss w) as [err w']. cbn [fst snd].
    destruct (kubeErrToGRPC_returns err) as [r Hr].
    exists r. now rewrite Hr.
Qed.

(** A stream that fails with [Forbidden] after three messages: the three
    messages stand and the error that leaves is [PermissionDenied]. *)
Example stream_forbidden_after_messages :
  ErrorCodeK8sStreamServerInterceptor tt tt tt threeThenForbidden [] =
  Returns (Some (status.errorOf
                   (mkStatus codes.PermissionDenied "pods is forbidden")),
           ["m3"; "m2"; "m1"]).
Proof. reflexivity. Qed.

(* ================================================================== *)
(** ** Further properties of the classifiers *)

Lemma firstRule_some_fires (err : error) (r : (error -> bool) * codes.Code) :
  firstRule err = Some r -> noneFires kubeRules err = false.
Proof.
  intros H. destruct (noneFires kubeRules err) eqn:Hnone; [ | reflexivity].
  apply find_none_fires in Hnone. unfold firstRule in H. congruence.
Qed.

Lemma noneFires_false_firstRule (err : error) :
  noneFires kubeRules err = false -> exists r, firstRule err = Some r.
Proof.
  intros H. destruct (firstRule err) as [r | ] eqn:Hfirst; [now exists r | ].
  apply firstRule_none_noneFires in Hfirst. congruence.
Qed.

(** What [kubeErrToGRPC] returns when a rule fires. *)
Lemma kubeErrToGRPC_fired (e : errval) (r : (error -> bool) * codes.Code) :
  firstRule (Some e) = Some r ->
  kubeErrToGRPC (Some e) =
  Returns (Some (status.errorOf (mkStatus (snd r) (errText e)))).
Proof.
  intros Hfirst. rewrite kubeErrToGRPC_table, Hfirst.
  destruct r as [p c]. apply firstRule_In in Hfirst as [Hin _].
  apply (rewrapError_rule e (p, c) Hin).
Qed.

(** X1.  [kubeErrToGRPC] turns a non-nil error into nil in one case only:
    no rule fires and the embedded status has the code [OK], which
    [status.Error] renders as nil. *)
Theorem kubeErrToGRPC_nil_result (e : errval) :
  kubeErrToGRPC (Some e) = Returns None <->
  noneFires kubeRules (Some e) = true /\
  exists m, UnwrapGRPCStatus (Some e) = Some (mkStatus codes.OK m).
Proof.
  split.
  - intros H. destruct (firstRule (Some e)) as [r | ] eqn:Hfirst.
    + rewrite (kubeErrToGRPC_fired e r Hfirst) in H. discriminate.
    + pose proof (firstRule_none_noneFires _ Hfirst) as Hnone.
      split; [assumption | ].
      rewrite kubeErrToGRPC_default in H by assumption.
      destruct (UnwrapGRPCStatus (Some e)) as [[c m] | ]; [ | discriminate].
      cbn [Code Message] in H. unfold status.Error in H.
      destruct (N.eqb_spec c codes.OK) as [-> | _]; [ | discriminate].
      now exists m.
  - intros [Hnone [m Hs]].
    rewrite kubeErrToGRPC_default by assumption. rewrite Hs. reflexivity.
Qed.

Lemma kubeErrToGRPC_nil_result_witness :
  kubeErrToGRPC (Some statusOK) = Returns None /\
  kubeErrToGRPC (Some wrappedInternal) <> Returns None.
Proof.
  split.
  - apply (proj2 (kubeErrToGRPC_nil_result statusOK)).
    split; [reflexivity | exists "done"; reflexivity].
  - intros H. apply (proj1 (kubeErrToGRPC_nil_result wrappedInternal)) in H.
    destruct H as [_ [m Hm]]. discriminate Hm.
Defined.

(** X2.  [gitErrToGRPC] never turns a non-nil error into nil, and the
    error it returns has the effective message of the one it received. *)
Theorem gitErrToGRPC_keeps_effective_message (e : errval) :
  exists r,
    gitErrToGRPC (Some e) = Returns (Some r) /\
    effectiveMessage r = effectiveMessage e.
Proof.
  rewrite gitErrToGRPC_value.
  destruct (String.eqb (effectiveMessage e) repositoryNotFound);
    eexists; split; reflexivity.
Qed.

(** X3.  Whatever leaves [gitErrToGRPC] with the canonical effective
    message is the bare [NotFound] status error: no error with that
    message keeps another code or a wrapping. *)
Theorem gitErrToGRPC_canonical_is_NotFound (e r : errval) :
  gitErrToGRPC (Some e) = Returns (Some r) ->
  effectiveMessage r = repositoryNotFound ->
  r = status.errorOf (mkStatus codes.NotFound repositoryNotFound).
Proof.
  rewrite gitErrToGRPC_value.
  destruct (String.eqb (effectiveMessage e) repositoryNotFound) eqn:Hfire;
    intros Hr Hmsg; injection Hr as <-.
  - apply String.eqb_eq in Hfire. now rewrite Hfire.
  - apply String.eqb_neq in Hfire. contradiction.
Qed.

Lemma gitErrToGRPC_canonical_is_NotFound_witness :
  exists r,
    gitErrToGRPC (Some deniedRepository) = Returns (Some r) /\
    effectiveMessage r = repositoryNotFound /\
    r = status.errorOf (mkStatus codes.NotFound repositoryNotFound).
Proof.
  exists (status.errorOf (mkStatus codes.NotFound repositoryNotFound)).
  split; [reflexivity | split; [reflexivity | ]].
  apply (gitErrToGRPC_canonical_is_NotFound deniedRepository); reflexivity.
Defined.

(** X4.  When a rule of [kubeErrToGRPC] fires, the code sent is never
    one of [OK], [Canceled], [Unknown], [OutOfRange], [DataLoss], and the
    message is the text of the error. *)
Theorem kubeErrToGRPC_unmapped_codes (e : errval) :
  noneFires kubeRules (Some e) = false ->
  exists c,
    kubeErrToGRPC (Some e) =
      Returns (Some (status.errorOf (mkStatus c (errText e)))) /\
    ~ In c unmappedCodes.
Proof.
  intros H. apply noneFires_false_firstRule in H as [[p c] Hfirst].
  exists c. split; [apply (kubeErrToGRPC_fired e (p, c) Hfirst) | ].
  apply firstRule_In in Hfirst as [Hin _].
  unfold kubeRules in Hin. cbn [In] in Hin.
  repeat (destruct Hin as [Heq | Hin];
          [injection Heq as _ <-; cbn; intuition discriminate | ]).
  contradiction.
Qed.

Lemma kubeErrToGRPC_unmapped_codes_witness :
  exists c,
    kubeErrToGRPC (Some forbiddenPods) =
      Returns (Some (status.errorOf (mkStatus c "pods is forbidden"))) /\
    ~ In c unmappedCodes.
Proof.
  apply (kubeErrToGRPC_unmapped_codes forbiddenPods). reflexivity.
Defined.

(** X5.  After [kubeErrToGRPC], a status that can be found by unwrapping
    the result is exposed by the result itself: the result is then the
    bare status error, and its code is not [OK]. *)
Theorem kubeErrToGRPC_status_outermost (err : error) (r : errval) (s : Status) :
  kubeErrToGRPC err = Returns (Some r) ->
  UnwrapGRPCStatus (Some r) = Some s ->
  r = status.errorOf s /\ Code s <> codes.OK.
Proof.
  rewrite kubeErrToGRPC_table.
  destruct (firstRule err) as [[p c] | ] eqn:Hfirst.
  - destruct err as [e | ]; [ | discriminate Hfirst].
    apply firstRule_In in Hfirst as [Hin _].
    pose proof (rewrapError_rule e (p, c) Hin) as Hrule.
    cbn [snd] in Hrule. rewrite Hrule.
    intros Hr Hs. injection Hr as <-.
    rewrite UnwrapGRPCStatus_errorOf in Hs. injection Hs as <-.
    split; [reflexivity | apply (kubeRules_codes_not_OK (p, c) Hin)].
  - destruct (UnwrapGRPCStatus err) as [s' | ] eqn:Hs'.
    + unfold status.Error.
      destruct (N.eqb_spec (Code s') codes.OK) as [E | NE]; [discriminate | ].
      intros Hr Hs. injection Hr as <-.
      rewrite UnwrapGRPCStatus_errorOf in Hs. injection Hs as <-.
      split; [reflexivity | exact NE].
    + intros Hr Hs. injection Hr as ->. congruence.
Qed.

Lemma kubeErrToGRPC_status_outermost_witness :
  exists r,
    kubeErrToGRPC (Some wrappedInternal) = Returns (Some r) /\
    r = status.errorOf (mkStatus codes.Internal "boom").
Proof.
  exists (status.errorOf (mkStatus codes.Internal "boom")).
  split; [reflexivity | ].
  apply (kubeErrToGRPC_status_outermost (Some wrappedInternal) _ _);
    reflexivity.
Defined.

(* ================================================================== *)
(** ** Annotations *)

Lemma UnwrapGRPCStatus_annotate (texts : list string) (e : errval) :
  UnwrapGRPCStatus (Some (annotate texts e)) = UnwrapGRPCStatus (Some e).
Proof.
  induction texts as [ | text texts IH]; [reflexivity | ].
  cbn [annotate]. rewrite UnwrapGRPCStatus_unfold. exact IH.
Qed.

Lemma reasonAndCodeForError_annotate (texts : list string) (e : errval) :
  apierrors.reasonAndCodeForError (Some (annotate texts e)) =
  apierrors.reasonAndCodeForError (Some e).
Proof.
  induction texts as [ | text texts IH]; [reflexivity | exact IH].
Qed.

(** The rules read an error through its reason and HTTP code only. *)
Lemma firstRule_reason_and_code (err err' : error) :
  apierrors.reasonAndCodeForError err = apierrors.reasonAndCodeForError err' ->
  firstRule err = firstRule err'.
Proof.
  intros H. unfold firstRule, kubeRules. cbn [find fst].
  unfold apierrors.IsNotFound, apierrors.IsAlreadyExists, apierrors.IsInvalid,
    apierrors.IsMethodNotSupported, apierrors.IsServiceUnavailable,
    apierrors.IsBadRequest, apierrors.IsUnauthorized, apierrors.IsForbidden,
    apierrors.IsTimeout, apierrors.IsServerTimeout, apierrors.IsConflict,
    apierrors.IsTooManyRequests, apierrors.IsInternalError,
    apierrors.reasonOrCode, apierrors.ReasonForError.
  rewrite H. reflexivity.
Qed.

Lemma occurs_app (c : ascii) (prefix rest : string) :
  occurs c (prefix ++ String.String c rest) = true.
Proof.
  induction prefix as [ | a prefix IH].
  - cbn [append occurs]. now rewrite Ascii.eqb_refl.
  - change (Ascii.eqb a c || occurs c (prefix ++ String.String c rest) = true).
    rewrite IH. apply orb_true_r.
Qed.

Lemma occurs_app_colon (prefix rest : string) :
  occurs ":" (prefix ++ ": " ++ rest) = true.
Proof. exact (occurs_app ":" prefix (" " ++ rest)). Qed.

(** X6.  [kubeErrToGRPC] sees through annotations: a status error of
    code other than [OK], under any layers of annotation whatever their
    texts, comes out as the bare status error rebuilt from the code and
    the message of its status. *)
Theorem kubeErrToGRPC_unwraps_annotations (texts : list string) (s : Status) :
  Code s <> codes.OK ->
  kubeErrToGRPC (Some (annotate texts (status.errorOf s))) =
  Returns (Some (status.errorOf (mkStatus (Code s) (Message s)))).
Proof.
  intros Hcode.
  rewrite kubeErrToGRPC_default.
  - rewrite UnwrapGRPCStatus_annotate, UnwrapGRPCStatus_errorOf.
    now rewrite status_Error_not_OK.
  - apply predicates_without_APIStatus.
    now rewrite reasonAndCodeForError_annotate.
Qed.

Lemma kubeErrToGRPC_unwraps_annotations_witness :
  kubeErrToGRPC
    (Some (annotate ["sync: 100% failed"; "repo-server call"]
             (status.errorOf (mkStatus codes.Unavailable "backend down")))) =
  Returns (Some (status.errorOf (mkStatus codes.Unavailable "backend down"))).
Proof.
  apply (kubeErrToGRPC_unwraps_annotations
           ["sync: 100% failed"; "repo-server call"]
           (mkStatus codes.Unavailable "backend down")).
  discriminate.
Defined.

(** X7.  [gitErrToGRPC] compares texts, it does not search the chain for
    the sentinel: an error that carries no status and is annotated as
    [fmt.Errorf(prefix + ": %w", inner)] is returned unchanged, whatever
    [inner] is, the sentinel [ErrRepositoryNotFound] included. *)
Theorem gitErrToGRPC_annotated_plain_error (prefix : string) (inner : errval) :
  UnwrapGRPCStatus (Some inner) = None ->
  gitErrToGRPC (Some (Errorf_w prefix inner)) =
  Returns (Some (Errorf_w prefix inner)).
Proof.
  intros Hs. rewrite gitErrToGRPC_value.
  replace (effectiveMessage (Errorf_w prefix inner))
    with (prefix ++ ": " ++ errText inner).
  - destruct (String.eqb_spec (prefix ++ ": " ++ errText inner)
                             repositoryNotFound) as [E | _]; [ | reflexivity].
    pose proof (occurs_app_colon prefix (errText inner)) as Hocc.
    rewrite E in Hocc. discriminate Hocc.
  - unfold effectiveMessage. rewrite UnwrapGRPCStatus_unfold.
    cbn [Errorf_w assertGRPCStatus grpcCap errors.Unwrap cause].
    now rewrite Hs.
Qed.

Lemma gitErrToGRPC_annotated_plain_error_witness :
  err_Error (Some annotatedNotFound) = Returns "clone: repository not found" /\
  errors.Unwrap (Some annotatedNotFound) = giterr.ErrRepositoryNotFound /\
  gitErrToGRPC (Some annotatedNotFound) = Returns (Some annotatedNotFound).
Proof.
  split; [reflexivity | split; [reflexivity | ]].
  apply (gitErrToGRPC_annotated_plain_error "clone"
           (ErrVal "repository not found" None None None [])).
  reflexivity.
Defined.

(** X8.  Annotations do not change the rule of [kubeErrToGRPC] that
    fires, only the message: when a rule with code [c] fires on [e], the
    same code is sent for [e] under any layers of annotation, whatever
    their texts, with the text of the outermost layer as message. *)
Theorem kubeErrToGRPC_code_under_annotations
        (texts : list string) (e : errval) (r : (error -> bool) * codes.Code) :
  firstRule (Some e) = Some r ->
  kubeErrToGRPC (Some (annotate texts e)) =
  Returns (Some (status.errorOf
                   (mkStatus (snd r) (errText (annotate texts e))))).
Proof.
  intros Hfirst. apply kubeErrToGRPC_fired.
  rewrite <- Hfirst. apply firstRule_reason_and_code.
  apply reasonAndCodeForError_annotate.
Qed.

Lemma kubeErrToGRPC_code_under_annotations_witness :
  kubeErrToGRPC (Some (annotate ["list pods"; "ignored"] forbiddenPods)) =
  Returns (Some (status.errorOf (mkStatus codes.PermissionDenied "list pods"))) /\
  kubeErrToGRPC (Some (annotate ["list"; "get"] storageReadError)) =
  Returns (Some (annotate ["list"; "get"] storageReadError)).
Proof.
  split; [ | reflexivity].
  apply (kubeErrToGRPC_code_under_annotations ["list pods"; "ignored"]
           forbiddenPods (apierrors.IsForbidden, codes.PermissionDenied)).
  reflexivity.
Defined.

(** X9.  The control-plane conditions [Gone] and [Expired] have no rule:
    an error with one of these reasons, an HTTP code other than 429 and
    no embedded status is returned by [kubeErrToGRPC] as it is. *)
Theorem kubeErrToGRPC_gone_expired_unmapped (e : errval) (st : metav1.Status) :
  apierrors.asAPIStatus e = Some st ->
  metav1.Reason st = metav1.StatusReasonGone \/
  metav1.Reason st = metav1.StatusReasonExpired ->
  metav1.Code st <> 429%Z ->
  UnwrapGRPCStatus (Some e) = None ->
  kubeErrToGRPC (Some e) = Returns (Some e).
Proof.
  intros Hst Hreason Hcode Hs.
  rewrite kubeErrToGRPC_default; [now rewrite Hs | ].
  unfold noneFires, kubeRules. cbn [forallb fst].
  unfold apierrors.IsNotFound, apierrors.IsAlreadyExists, apierrors.IsInvalid,
    apierrors.IsMethodNotSupported, apierrors.IsServiceUnavailable,
    apierrors.IsBadRequest, apierrors.IsUnauthorized, apierrors.IsForbidden,
    apierrors.IsTimeout, apierrors.IsServerTimeout, apierrors.IsConflict,
    apierrors.IsTooManyRequests, apierrors.IsInternalError,
    apierrors.reasonOrCode, apierrors.ReasonForError,
    apierrors.reasonAndCodeForError.
  rewrite Hst. apply Z.eqb_neq in Hcode.
  destruct st as [reason code]. cbn [metav1.Reason metav1.Code fst] in *.
  destruct Hreason as [-> | ->]; cbn; rewrite Hcode; reflexivity.
Qed.

Lemma kubeErrToGRPC_gone_expired_unmapped_witness :
  kubeErrToGRPC (Some goneError) = Returns (Some goneError).
Proof.
  apply (kubeErrToGRPC_gone_expired_unmapped goneError
           (metav1.mkStatus metav1.StatusReasonGone 410)).
  - reflexivity.
  - left; reflexivity.
  - discriminate.
  - reflexivity.
Defined.

(* ================================================================== *)
(** ** Further properties of the unwrapper *)

(** X10.  [UnwrapGRPCStatus] invents nothing: a status it returns is the
    one that the [GRPCStatus()] method of some link of the chain
    returns. *)
Theorem UnwrapGRPCStatus_from_chain (e : errval) (s : Status) :
  UnwrapGRPCStatus (Some e) = Some s ->
  exists link, In link (chain e) /\ grpcCap link = Some (Some s).
Proof.
  induction e as [t g a l | t g a l e' IH] using errval_chain_ind.
  - destruct g as [p | ]; cbn; intros H; [ | discriminate].
    subst p. eexists; split; [left; reflexivity | reflexivity].
  - destruct g as [p | ].
    + cbn. intros H. subst p.
      eexists; split; [left; reflexivity | reflexivity].
    + rewrite UnwrapGRPCStatus_unfold.
      cbn [assertGRPCStatus grpcCap errors.Unwrap cause].
      intros H. destruct (IH H) as [link [Hin Hcap]].
      exists link. split; [ | exact Hcap].
      cbn [chain cause]. right. exact Hin.
Qed.

Lemma UnwrapGRPCStatus_from_chain_witness :
  exists link,
    In link (chain wrappedInternal) /\
    grpcCap link = Some (Some (mkStatus codes.Internal "boom")).
Proof.
  apply (UnwrapGRPCStatus_from_chain wrappedInternal). reflexivity.
Defined.

(** X11.  On any chain, whatever its links expose, the calls of
    [UnwrapGRPCStatus] nest no deeper than the chain is long; and a run
    that finishes within some bound gives the result of the function. *)
Theorem UnwrapGRPCStatus_within_bound :
  (forall e : errval,
      UnwrapGRPCStatus_within (S (depth e)) (Some e) =
      Some (UnwrapGRPCStatus (Some e))) /\
  (forall (fuel : nat) (err : error) (r : option Status),
      UnwrapGRPCStatus_within fuel err = Some r ->
      r = UnwrapGRPCStatus err).
Proof.
  split.
  - intros e. apply UnwrapGRPCStatus_within_depth. lia.
  - induction fuel as [ | fuel IH]; intros err r H; [discriminate | ].
    rewrite UnwrapGRPCStatus_unfold.
    cbn [UnwrapGRPCStatus_within] in H.
    destruct (assertGRPCStatus err) as [p | ]; [congruence | ].
    destruct (errors.Unwrap err) as [e' | ]; [ | congruence].
    now apply IH.
Qed.

Lemma UnwrapGRPCStatus_within_bound_witness :
  UnwrapGRPCStatus_within 2 (Some wrappedInternal) =
  Some (UnwrapGRPCStatus (Some wrappedInternal)) /\
  Some (mkStatus codes.Internal "boom") = UnwrapGRPCStatus (Some wrappedInternal).
Proof.
  split.
  - apply (proj1 UnwrapGRPCStatus_within_bound wrappedInternal).
  - apply (proj2 UnwrapGRPCStatus_within_bound 5). reflexivity.
Defined.

(* ================================================================== *)
(** ** Panics *)

(** X12.  [rewrapError] panics on a nil error, and the classifiers never
    hand it one: on nil and on every error value whose own methods
    return, [gitErrToGRPC] and [kubeErrToGRPC] return.  ([gitErrToGRPC]
    tests for nil first, and no predicate of [kubeErrToGRPC] holds of
    nil.  A non-nil interface holding a nil pointer, whose methods
    panic by themselves, is no value of [errval] and is not spoken
    of.) *)
Theorem classifiers_never_panic :
  (forall code, rewrapError None code = Panics) /\
  (forall err, gitErrToGRPC err <> Panics) /\
  (forall err, kubeErrToGRPC err <> Panics).
Proof.
  split; [reflexivity | split]; intros err H.
  - destruct (gitErrToGRPC_returns err) as [r Hr]. congruence.
  - destruct (kubeErrToGRPC_returns err) as [r Hr]. congruence.
Qed.

(* ================================================================== *)
(** ** Further properties of the interceptors *)

(** X13.  A call that succeeds leaves each of the four interceptors as it
    left the handler: nil error, same response, same world. *)
Theorem interceptors_keep_success
        (Context Req Resp Info Srv ServerStream W : Type) :
  (forall ctx req (info : Info) (handler : UnaryHandler Context Req Resp W)
          w resp w',
      handler ctx req w = ((resp, None), w') ->
      ErrorCodeGitUnaryServerInterceptor ctx req info handler w =
        Returns ((resp, None), w') /\
      ErrorCodeK8sUnaryServerInterceptor ctx req info handler w =
        Returns ((resp, None), w')) /\
  (forall srv ss (info : Info) (handler : StreamHandler Srv ServerStream W)
          w w',
      handler srv ss w = (None, w') ->
      ErrorCodeGitStreamServerInterceptor srv ss info handler w =
        Returns (None, w') /\
      ErrorCodeK8sStreamServerInterceptor srv ss info handler w =
        Returns (None, w')).
Proof.
  split; intros.
  - unfold ErrorCodeGitUnaryServerInterceptor,
      ErrorCodeK8sUnaryServerInterceptor.
    rewrite H. split; reflexivity.
  - unfold ErrorCodeGitStreamServerInterceptor,
      ErrorCodeK8sStreamServerInterceptor.
    rewrite H. split; reflexivity.
Qed.

Lemma interceptors_keep_success_witness :
  ErrorCodeGitUnaryServerInterceptor tt "ping" tt succeeds 0 =
    Returns (("reply to ping", None), 1) /\
  ErrorCodeK8sUnaryServerInterceptor tt "ping" tt succeeds 0 =
    Returns (("reply to ping", None), 1).
Proof.
  apply (proj1 (interceptors_keep_success unit string string unit unit unit nat)
               tt "ping" tt succeeds 0 "reply to ping" 1).
  reflexivity.
Defined.

(** X14.  The version-control interceptors never hide a failure: the
    error they return is nil exactly when the handler's error is. *)
Theorem git_interceptors_keep_failure
        (Context Req Resp Info Srv ServerStream W : Type) :
  (forall ctx req (info : Info) (handler : UnaryHandler Context Req Resp W) w,
      exists err',
        ErrorCodeGitUnaryServerInterceptor ctx req info handler w =
          Returns ((fst (fst (handler ctx req w)), err'),
                   snd (handler ctx req w)) /\
        (err' = None <-> snd (fst (handler ctx req w)) = None)) /\
  (forall srv ss (info : Info) (handler : StreamHandler Srv ServerStream W) w,
      exists err',
        ErrorCodeGitStreamServerInterceptor srv ss info handler w =
          Returns (err', snd (handler srv ss w)) /\
        (err' = None <-> fst (handler srv ss w) = None)).
Proof.
  assert (Hgit : forall err, exists err',
             gitErrToGRPC err = Returns err' /\ (err' = None <-> err = None)).
  { intros [e | ].
    - rewrite gitErrToGRPC_value.
      destruct (String.eqb (effectiveMessage e) repositoryNotFound);
        eexists; (split; [reflexivity | split; discriminate]).
    - exists None. split; [reflexivity | tauto]. }
  split; intros.
  - unfold ErrorCodeGitUnaryServerInterceptor.
    destruct (handler ctx req w) as [[resp err] w']. cbn [fst snd].
    destruct (Hgit err) as [err' [Hr Hiff]].
    exists err'. rewrite Hr. split; [reflexivity | exact Hiff].
  - unfold ErrorCodeGitStreamServerInterceptor.
    destruct (handler srv ss w) as [err w']. cbn [fst snd].
    destruct (Hgit err) as [err' [Hr Hiff]].
    exists err'. rewrite Hr. split; [reflexivity | exact Hiff].
Qed.

Lemma git_interceptors_keep_failure_witness :
  exists err',
    ErrorCodeGitUnaryServerInterceptor tt "ping" tt fails 0 =
      Returns (("", err'), 1) /\
    (err' = None <-> Some networkError = None).
Proof.
  apply (proj1 (git_interceptors_keep_failure unit string string unit unit unit nat)
               tt "ping" tt fails 0).
Defined.

(* ================================================================== *)
(** ** The helpers of fixture.go *)

Lemma Split_not_nil (s : string) (sep : ascii) : fixture.Split s sep <> [].
Proof.
  destruct s as [ | a rest]; cbn [fixture.Split]; [discriminate | ].
  destruct (Ascii.eqb a sep); [discriminate | ].
  destruct (fixture.Split rest sep); discriminate.
Qed.

Lemma Split_length (s : string) (sep : ascii) :
  length (fixture.Split s sep) = S (fixture.count sep s).
Proof.
  induction s as [ | a rest IH]; [reflexivity | ].
  cbn [fixture.Split fixture.count].
  destruct (Ascii.eqb a sep).
  - cbn [length plus]. now rewrite IH.
  - destruct (fixture.Split rest sep) as [ | piece pieces] eqn:Hsplit.
    + now apply Split_not_nil in Hsplit.
    + cbn [length plus] in *. exact IH.
Qed.

Lemma Split_without_sep (s : string) (sep : ascii) :
  fixture.count sep s = 0 -> fixture.Split s sep = [s].
Proof.
  induction s as [ | a rest IH]; [reflexivity | ].
  cbn [fixture.Split fixture.count].
  destruct (Ascii.eqb a sep); [discriminate | ].
  cbn [plus]. intros H. now rewrite (IH H).
Qed.

Lemma Split_app (g k : string) (sep : ascii) :
  fixture.count sep g = 0 ->
  fixture.Split (g ++ String.String sep k) sep = g :: fixture.Split k sep.
Proof.
  induction g as [ | a g IH].
  - intros _. cbn [append fixture.Split]. now rewrite Ascii.eqb_refl.
  - cbn [fixture.count]. intros H.
    change (String.String a g ++ String.String sep k)
      with (String.String a (g ++ String.String sep k)).
    cbn [fixture.Split].
    destruct (Ascii.eqb a sep); [discriminate | ].
    cbn [plus] in H. now rewrite (IH H).
Qed.

Lemma count_app (c : ascii) (s t : string) :
  fixture.count c (s ++ t) = fixture.count c s + fixture.count c t.
Proof.
  induction s as [ | a s IH]; [reflexivity | ].
  change (String.String a s ++ t) with (String.String a (s ++ t)).
  cbn [fixture.count]. rewrite IH. lia.
Qed.

Lemma GetEnvWithDefault_not_empty (getenv : fixture.Env) (name default : string) :
  default <> "" -> fixture.GetEnvWithDefault getenv name default <> "".
Proof.
  intros Hd. unfold fixture.GetEnvWithDefault.
  destruct (String.eqb_spec (getenv name) ""); assumption.
Qed.

(** X15.  For a key [group/kind] with a single slash,
    [getResourceOverrideSplitKey] gives
    [resource.customizations.<type>.<group>_<kind>]. *)
Theorem getResourceOverrideSplitKey_group_kind (group kind customizeType : string) :
  fixture.count "/" group = 0 ->
  fixture.count "/" kind = 0 ->
  fixture.getResourceOverrideSplitKey (group ++ "/" ++ kind) customizeType =
  "resource.customizations." ++ customizeType ++ "." ++ group ++ "_" ++ kind.
Proof.
  intros Hg Hk. unfold fixture.getResourceOverrideSplitKey.
  change (group ++ "/" ++ kind) with (group ++ String.String "/" kind).
  rewrite (Split_app group kind "/" Hg), (Split_without_sep kind "/" Hk).
  reflexivity.
Qed.

Lemma getResourceOverrideSplitKey_group_kind_witness :
  fixture.getResourceOverrideSplitKey "apps/Deployment" "health" =
  "resource.customizations.health.apps_Deployment".
Proof.
  apply (getResourceOverrideSplitKey_group_kind "apps" "Deployment" "health");
    reflexivity.
Defined.

(** X16.  A key that has no slash, or more than one, is used as it is:
    its slashes, if any, stay in the result. *)
Theorem getResourceOverrideSplitKey_other_keys (key customizeType : string) :
  fixture.count "/" key <> 1 ->
  fixture.getResourceOverrideSplitKey key customizeType =
  "resource.customizations." ++ customizeType ++ "." ++ key.
Proof.
  intros H. unfold fixture.getResourceOverrideSplitKey.
  rewrite Split_length.
  destruct (Nat.eqb_spec (S (fixture.count "/" key)) 2) as [E | _];
    [ | reflexivity].
  exfalso. apply H. lia.
Qed.

Lemma getResourceOverrideSplitKey_other_keys_witness :
  fixture.getResourceOverrideSplitKey "ConfigMap" "actions" =
  "resource.customizations.actions.ConfigMap" /\
  fixture.getResourceOverrideSplitKey "a/b/c" "actions" =
  "resource.customizations.actions.a/b/c".
Proof.
  split.
  - apply (getResourceOverrideSplitKey_other_keys "ConfigMap" "actions").
    discriminate.
  - apply (getResourceOverrideSplitKey_other_keys "a/b/c" "actions").
    discriminate.
Defined.

(** X17.  [getResourceOverrideSplitKey] is not injective: the keys
    [group/kind] and [group_kind] give the same result. *)
Theorem getResourceOverrideSplitKey_collision (group kind customizeType : string) :
  fixture.count "/" group = 0 ->
  fixture.count "/" kind = 0 ->
  group ++ "/" ++ kind <> group ++ "_" ++ kind /\
  fixture.getResourceOverrideSplitKey (group ++ "/" ++ kind) customizeType =
  fixture.getResourceOverrideSplitKey (group ++ "_" ++ kind) customizeType.
Proof.
  intros Hg Hk. split.
  - intros E. apply (f_equal (fixture.count "/")) in E.
    rewrite !count_app in E. cbn [fixture.count Ascii.eqb] in E.
    cbn in E. lia.
  - unfold fixture.getResourceOverrideSplitKey at 1.
    change (group ++ "/" ++ kind) with (group ++ String.String "/" kind).
    rewrite (Split_app group kind "/" Hg), (Split_without_sep kind "/" Hk).
    unfold fixture.getResourceOverrideSplitKey. rewrite Split_length.
    rewrite !count_app. rewrite Hg, Hk. reflexivity.
Qed.

Lemma getResourceOverrideSplitKey_collision_witness :
  fixture.getResourceOverrideSplitKey "apps/Deployment" "health" =
  fixture.getResourceOverrideSplitKey "apps_Deployment" "health".
Proof.
  apply (getResourceOverrideSplitKey_collision "apps" "Deployment" "health");
    reflexivity.
Defined.

(** X18.  Whatever the environment and the type asked for, [RepoURL],
    [TestNamespace] and [AppNamespace] never return the empty string: a
    variable that is unset or empty gives way to a default that is not
    empty. *)
Theorem fixture_values_not_empty (getenv : fixture.Env) (urlType : string) :
  fixture.RepoURL getenv urlType <> "" /\
  fixture.TestNamespace getenv <> "" /\
  fixture.AppNamespace getenv <> "".
Proof.
  split; [ | split; apply GetEnvWithDefault_not_empty; discriminate].
  unfold fixture.RepoURL.
  repeat match goal with
         | |- (if ?b then _ else _) <> _ => destruct b
         end;
    try (apply GetEnvWithDefault_not_empty); discriminate.
Qed.

(** X19.  The types [helm] and [helm-par] read the same variable,
    [ARGOCD_E2E_REPO_HELM]: once it is set, [RepoURL] gives its value for
    both, and the parent repository is no longer told from the
    repository. *)
Theorem RepoURL_helm_parent_shares_variable (getenv : fixture.Env) :
  getenv fixture.EnvRepoURLTypeHelm <> "" ->
  fixture.RepoURL getenv fixture.RepoURLTypeHelm =
    getenv fixture.EnvRepoURLTypeHelm /\
  fixture.RepoURL getenv fixture.RepoURLTypeHelmParent =
    getenv fixture.EnvRepoURLTypeHelm.
Proof.
  intros H.
  assert (Hget : forall d,
             fixture.GetEnvWithDefault getenv fixture.EnvRepoURLTypeHelm d =
             getenv fixture.EnvRepoURLTypeHelm).
  { intros d. unfold fixture.GetEnvWithDefault.
    destruct (String.eqb_spec (getenv fixture.EnvRepoURLTypeHelm) "");
      [contradiction | reflexivity]. }
  split; unfold fixture.RepoURL; cbn [String.eqb]; cbn; apply Hget.
Qed.

Lemma RepoURL_helm_parent_shares_variable_witness :
  fixture.RepoURL (fixture.oneVar "ARGOCD_E2E_REPO_HELM" "https://charts.example")
                  "helm" = "https://charts.example" /\
  fixture.RepoURL (fixture.oneVar "ARGOCD_E2E_REPO_HELM" "https://charts.example")
                  "helm-par" = "https://charts.example".
Proof.
  apply (RepoURL_helm_parent_shares_variable
           (fixture.oneVar "ARGOCD_E2E_REPO_HELM" "https://charts.example")).
  discriminate.
Defined.
